(** * A shallow embedding of bugbug/code_search/searchfox_api.py

    The module resolves a symbol (by name, or by a file and a line) to the
    source text of its enclosing function, using three remote services of
    searchfox / hg.mozilla.org.  The remote services are modelled as pure
    functions from the requested URL (or the revision and path) to the
    response, so that every local step is a function of the remote data.
    Python exceptions are modelled by the [result] error type below. *)

From Stdlib Require Import String Ascii List ZArith Lia Bool.
Import ListNotations.
Open Scope string_scope.
Open Scope Z_scope.
Set Warnings "-register-all".

(** ** Exceptions and the error monad *)

Inductive exn : Type :=
  | HTTPError (status_code : Z)   (* [r.raise_for_status()] *)
  | AssertionError                (* [assert len(file) == 1] *)
  | StopIteration                 (* [next(iter([]))] *)
  | ValueError                    (* [*_, e = iter([])], [int("...")] *)
  | TypeError                     (* [None[len("line-"):]] *)
  | ParseError                    (* the [split]/[json.loads] chain of [search] *)
  | FetchError (msg : string).    (* an exception raised by [self.get_file] *)

Inductive result (A : Type) : Type :=
  | Ok (a : A)
  | Err (e : exn).
Arguments Ok {A} a.
Arguments Err {A} e.

Definition bind {A B} (m : result A) (k : A -> result B) : result B :=
  match m with
  | Ok a => k a
  | Err e => Err e
  end.

Notation "x <- m ;; k" := (bind m (fun x => k))
  (at level 61, m at next level, right associativity).
Notation "m ;;; k" := (bind m (fun _ => k))
  (at level 61, right associativity).

Fixpoint mapM {A B} (f : A -> result B) (l : list A) : result (list B) :=
  match l with
  | [] => Ok []
  | x :: l' => y <- f x ;; ys <- mapM f l' ;; Ok (y :: ys)
  end.

(** ** Python string operations *)

Module PyStr.

(** [sub in s] *)
Definition contains (sub s : string) : bool :=
  match String.index 0 sub s with Some _ => true | None => false end.

(** [s.index(sub)], guarded by [sub in s] at every use *)
Definition index (sub s : string) : option nat := String.index 0 sub s.

(** [s.startswith(p)] *)
Definition startswith (s p : string) : bool := String.prefix p s.

(** [s.endswith(p)] *)
Definition endswith (s p : string) : bool :=
  let n := String.length s in
  let m := String.length p in
  (m <=? n)%nat && String.eqb (String.substring (n - m) m s) p.

(** [s[1:]] and [s[5:]]: slicing never fails *)
Definition drop (k : nat) (s : string) : string :=
  String.substring k (String.length s - k) s.

(** [sep.join(ls)] *)
Fixpoint join (sep : string) (ls : list string) : string :=
  match ls with
  | [] => ""
  | [l] => l
  | l :: ls' => l ++ sep ++ join sep ls'
  end.

(** [\w] of Python's [re], on ASCII characters *)
Definition is_word_char (c : ascii) : bool :=
  let n := nat_of_ascii c in
  ((48 <=? n) && (n <=? 57))%nat || ((65 <=? n) && (n <=? 90))%nat
  || ((97 <=? n) && (n <=? 122))%nat || (n =? 95)%nat.

Definition word_at (s : string) (i : nat) : bool :=
  match String.get i s with Some c => is_word_char c | None => false end.

(** [\b] at position [i] of [s] *)
Definition boundary (s : string) (i : nat) : bool :=
  let before := match i with O => false | S j => word_at s j end in
  xorb before (word_at s i).

Definition word_match_at (w s : string) (i : nat) : bool :=
  boundary s i && String.eqb (String.substring i (String.length w) s) w
  && boundary s (i + String.length w).

Fixpoint first_from (p : nat -> bool) (i fuel : nat) : option nat :=
  match fuel with
  | O => None
  | S fuel' => if p i then Some i else first_from p (S i) fuel'
  end.

(** [re.compile(rf"\b{w}\b").search(s)] and its [.start()], for a symbol
    name [w] free of regular-expression metacharacters: the first position
    where [w] occurs with a word boundary on both sides. *)
Definition word_search (w s : string) : option nat :=
  first_from (word_match_at w s) 0 (S (String.length s)).

End PyStr.

(** ** The search index payload and the definition classifier ([search]) *)

(** One entry of a [Definitions(...)] bucket: [value["path"]] and the
    matched line [value["lines"][0]["line"]]. *)
Record hit : Type := mk_hit {
  hit_path : string;
  hit_line : string;
}.

(** [results[type_]]: the buckets of one category, as the items of a dict. *)
Definition buckets := list (string * list hit).

(** The parsed [results] object: category name to buckets. *)
Definition results_obj := list (string * buckets).

Fixpoint lookup {V} (k : string) (d : list (string * V)) : option V :=
  match d with
  | [] => None
  | (k', v) :: d' => if String.eqb k k' then Some v else lookup k d'
  end.

(** The extension groups of [bugbug.repository.SOURCE_CODE_TYPES_TO_EXT]
    that [search] reads. *)
Record ext_table : Type := mk_ext_table {
  rust_exts : list string;
  javascript_exts : list string;
  c_cpp_exts : list string;
  objc_exts : list string;
  python_exts : list string;
}.

(** Modelled from the spec: [SOURCE_CODE_TYPES_TO_EXT] lives in
    [bugbug.repository], outside the sources; the spec names the language
    families (a systems language with [fn NAME] syntax, a web-scripting
    language, C-family and Objective-C, a scripting language with [def]
    syntax) but not their extensions. This instance gives each family its
    usual extension; every theorem below that does not name it holds for
    any table. *)
Definition SOURCE_CODE_TYPES_TO_EXT : ext_table := {|
  rust_exts := [".rs"];
  javascript_exts := [".js"; ".jsm"; ".mjs"];
  c_cpp_exts := [".c"; ".cpp"; ".h"];
  objc_exts := [".m"; ".mm"];
  python_exts := [".py"];
|}.

(** [any(path.endswith(ext) for ext in exts)] *)
Definition ends_with_any (path : string) (exts : list string) : bool :=
  existsb (PyStr.endswith path) exts.

(** [symbol_word_position is not None and symbol_word_position < line.index(tok)],
    under the guard [tok in line]. *)
Definition word_before (pos : option nat) (tok line : string) : bool :=
  PyStr.contains tok line &&
  match pos, PyStr.index tok line with
  | Some p, Some i => (p <? i)%nat
  | _, _ => false
  end.

(** The body of the innermost [for value in values] loop: [true] when the
    value is appended to [definitions]. *)
Definition accept (tbl : ext_table) (symbol_name : string) (value : hit) : bool :=
  let line := hit_line value in
  if negb (PyStr.contains symbol_name line) then false (* continue *)
  else
  let symbol_word_position := PyStr.word_search symbol_name line in
  if ends_with_any (hit_path value) (rust_exts tbl) then
    (* not an f-string in the source *)
    PyStr.contains "fn {symbol_name}" line
    || word_before symbol_word_position "|" line
  else if ends_with_any (hit_path value) (javascript_exts tbl) then
    PyStr.contains (symbol_name ++ "(") line
    || PyStr.contains ("function " ++ symbol_name) line
    || word_before symbol_word_position "function" line
    || word_before symbol_word_position "=>" line
  else if ends_with_any (hit_path value) (c_cpp_exts tbl ++ objc_exts tbl) then
    PyStr.contains (symbol_name ++ "(") line
    || word_before symbol_word_position "->" line
  else if ends_with_any (hit_path value) (python_exts tbl) then
    PyStr.contains ("def " ++ symbol_name ++ "(") line
    || word_before symbol_word_position "lambda" line
  else true.

(** [sub_type.startswith("Definitions") and sub_type.endswith(f"{symbol_name})")] *)
Definition bucket_matches (symbol_name sub_type : string) : bool :=
  PyStr.startswith sub_type "Definitions"
  && PyStr.endswith sub_type (symbol_name ++ ")").

Definition categories : list string := ["normal"; "thirdparty"; "test"].

(** The three nested loops of [search] that build [definitions]. *)
Definition search_definitions (tbl : ext_table) (symbol_name : string)
    (results : results_obj) : list hit :=
  flat_map (fun type_ =>
    match lookup type_ results with
    | None => [] (* continue *)
    | Some subs =>
        flat_map (fun '(sub_type, values) =>
          if bucket_matches symbol_name sub_type
          then filter (accept tbl symbol_name) values
          else []) subs
    end) categories.

(** [list(set(...))]: the order of a Python set of strings is unspecified
    (string hashing is randomised); the model keeps first occurrences. *)
Fixpoint dedup (l : list string) : list string :=
  match l with
  | [] => []
  | x :: l' => if existsb (String.eqb x) l' then dedup l' else x :: dedup l'
  end.

(** [paths = list(set(definition["path"] for definition in definitions))] *)
Definition definition_paths (tbl : ext_table) (symbol_name : string)
    (results : results_obj) : list string :=
  dedup (map hit_path (search_definitions tbl symbol_name results)).

(** ** The rendered file view and its scope annotations ([get_functions]) *)

(** An lxml element: its attributes and its children. *)
Inductive element : Type :=
  | Elem (attrib : list (string * string)) (children : list element).

Definition attrib_of (e : element) : list (string * string) :=
  match e with Elem a _ => a end.

Definition children_of (e : element) : list element :=
  match e with Elem _ k => k end.

(** [element.iterdescendants()]: document order, the element itself excluded. *)
Fixpoint iterdescendants (e : element) : list element :=
  match e with
  | Elem _ kids =>
      (fix go (ks : list element) : list element :=
         match ks with
         | [] => []
         | k :: ks' => k :: (iterdescendants k ++ go ks')%list
         end) kids
  end.

(** [int(s)] on the decimal strings a line anchor carries. *)
Fixpoint digits_value (acc : Z) (s : string) : option Z :=
  match s with
  | EmptyString => Some acc
  | String c s' =>
      let n := Z.of_nat (nat_of_ascii c) in
      if (48 <=? n) && (n <=? 57)
      then digits_value (10 * acc + (n - 48)) s'
      else None
  end.

Definition py_int (s : string) : result Z :=
  match s with
  | EmptyString => Err ValueError
  | _ => match digits_value 0 s with Some v => Ok v | None => Err ValueError end
  end.

Inductive position : Type := Start | End_.

(** [int(element.get("id")[len("line-"):])] *)
Definition line_of_id (e : element) : result Z :=
  match lookup "id" (attrib_of e) with
  | None => Err TypeError
  | Some id => py_int (PyStr.drop 5 id)
  end.

Definition has_nesting_sym (e : element) : bool :=
  match lookup "data-nesting-sym" (attrib_of e) with Some _ => true | None => false end.

(** [get_line_number(element.iterchildren(), position)] for an element
    reached as the first (start) or last (end) of its siblings. *)
Fixpoint line_number_of (pos : position) (e : element) {struct e} : result Z :=
  match e with
  | Elem attrs kids =>
      if has_nesting_sym (Elem attrs kids) then
        match pos with
        | Start =>
            match kids with
            | [] => Err StopIteration
            | k :: _ => line_number_of pos k
            end
        | End_ =>
            (fix last_of (ks : list element) : result Z :=
               match ks with
               | [] => Err ValueError
               | [k] => line_number_of pos k
               | _ :: ks' => last_of ks'
               end) kids
        end
      else line_of_id (Elem attrs kids)
  end.

(** [get_line_number(elements, position)] *)
Definition get_line_number (elements : list element) (pos : position) : result Z :=
  match pos with
  | Start =>
      match elements with
      | [] => Err StopIteration           (* next(iter(elements)) *)
      | e :: _ => line_number_of Start e
      end
  | End_ =>
      match rev elements with
      | [] => Err ValueError              (* *_, element = iter(elements) *)
      | e :: _ => line_number_of End_ e
      end
  end.

(** The dict [{"name": ..., "path": ..., "start": ..., "end": ...}]. *)
Record definition : Type := mk_definition {
  def_name : string;
  def_path : string;
  def_start : Z;
  def_end : Z;
}.

(** The HTTP response of [html_session.get(...)]: its status code and
    [r.html.find("#file")]. *)
Record view_response : Type := mk_view_response {
  view_status : Z;
  view_file : list element;
}.

(** The HTTP response of the index query: its status code and the [results]
    object parsed from [r.text] ([None] when the [split]/[json.loads] chain
    raises). *)
Record search_response : Type := mk_search_response {
  search_status : Z;
  search_results : option results_obj;
}.

(** The remote collaborators: responses by URL, and [self.get_file]. *)
Record remote : Type := mk_remote {
  http_view : string -> view_response;
  http_search : string -> search_response;
  get_file : string -> string -> result string;
}.

Definition raise_for_status (status : Z) : result unit :=
  if (400 <=? status) && (status <? 600) then Err (HTTPError status) else Ok tt.

Definition source_url (path : string) : string :=
  "https://searchfox.org/mozilla-central/source/" ++ path.

Definition search_url (symbol_name : string) : string :=
  "https://searchfox.org/mozilla-central/search?q=id:" ++ symbol_name.

(** The filter of the [iterdescendants] loop. *)
Definition is_sym_wrap (symbol_name : option string) (e : element) : bool :=
  match lookup "data-nesting-sym" (attrib_of e) with
  | None => false
  | Some sym =>
      match symbol_name with
      | None => true
      | Some s => PyStr.contains s sym
      end
  end.

Definition sym_wrap_to_definition (path : string) (sym_wrap : element)
    : result definition :=
  match lookup "data-nesting-sym" (attrib_of sym_wrap) with
  | None => Err TypeError (* unreachable: filtered by [is_sym_wrap] *)
  | Some sym =>
      start <- get_line_number (children_of sym_wrap) Start ;;
      end_ <- get_line_number (children_of sym_wrap) End_ ;;
      Ok (mk_definition (PyStr.drop 1 sym) path start end_)
  end.

(** [get_functions(commit_hash, path, symbol_name=None)] *)
Definition get_functions (env : remote) (commit_hash path : string)
    (symbol_name : option string) : result (list definition) :=
  let r := http_view env (source_url path) in
  if view_status r =? 404 then Ok []
  else
    raise_for_status (view_status r) ;;;
    match view_file r with
    | [file] =>
        let sym_wraps := filter (is_sym_wrap symbol_name) (iterdescendants file) in
        mapM (sym_wrap_to_definition path) sym_wraps
    | _ => Err AssertionError
    end.

(** ** Enclosing-scope resolution ([find_function_for_line]) *)

(** [function["start"] <= line <= function["end"]] *)
Definition contains_line (line : Z) (f : definition) : bool :=
  (def_start f <=? line) && (line <=? def_end f).

(** One iteration of the [for function in functions] loop. *)
Definition select_step (line : Z) (selected_function : option definition)
    (function : definition) : option definition :=
  if contains_line line function then
    match selected_function with
    | None => Some function
    | Some s => if def_start s <? def_start function then Some function
                else selected_function
    end
  else selected_function.

Definition select_function (line : Z) (functions : list definition)
    : option definition :=
  fold_left (select_step line) functions None.

(** [find_function_for_line(commit_hash, path, line)] *)
Definition find_function_for_line (env : remote) (commit_hash path : string)
    (line : Z) : result (option definition) :=
  functions <- get_functions env commit_hash path None ;;
  Ok (select_function line functions).

(** ** Source extraction and the façade ([FunctionSearchSearchfoxAPI]) *)

(** The lines of a text stream, without their line terminators. *)
Fixpoint split_lines_acc (cur : string) (s : string) : list string :=
  match s with
  | EmptyString => match cur with EmptyString => [] | _ => [cur] end
  | String c s' =>
      if Ascii.eqb c "010"%char then cur :: split_lines_acc EmptyString s'
      else split_lines_acc (cur ++ String c EmptyString) s'
  end.

Definition split_lines (text : string) : list string := split_lines_acc "" text.

(** The lines whose 1-based numbers [n] satisfy [start_line <= n < end_line]. *)
Fixpoint lines_in_range (n start_line end_line : Z) (ls : list string)
    : list string :=
  match ls with
  | [] => []
  | l :: ls' =>
      if (start_line <=? n) && (n <? end_line)
      then l :: lines_in_range (n + 1) start_line end_line ls'
      else lines_in_range (n + 1) start_line end_line ls'
  end.

(** Modelled from the spec: [searchfox_data.extract_source] is not in the
    sources. Per the spec (4.3) it reads the file once through
    [read_mc_path(path)] and returns the literal lines whose 1-based line
    numbers fall in [[start_line, end_line)]; a failure of the reader is
    not caught (7: a raw-content failure propagates to the caller). *)
Definition extract_source (path : string) (start_line end_line : Z)
    (read_mc_path : string -> result string) : result (list string) :=
  text <- read_mc_path path ;;
  Ok (lines_in_range 1 start_line end_line (split_lines text)).

(** [commit_hash or "tip"] *)
Definition rev_or_tip (commit_hash : string) : string :=
  match commit_hash with EmptyString => "tip" | _ => commit_hash end.

Definition newline : string := String "010" EmptyString.

(** [bugbug.code_search.function_search.Function] *)
Record Function_ : Type := mk_Function {
  fn_name : string;
  fn_start : Z;
  fn_path : string;
  fn_source : string;
}.

(** [definition["end"] + 1 if definition["end"] != definition["start"] else definition["end"]] *)
Definition end_bound (d : definition) : Z :=
  if negb (def_end d =? def_start d) then def_end d + 1 else def_end d.

(** The body of the [for definition in definitions] loop. *)
Definition definition_to_result (env : remote) (commit_hash : string)
    (d : definition) : result Function_ :=
  source <- extract_source (def_path d) (def_start d) (end_bound d)
              (fun path => get_file env (rev_or_tip commit_hash) path) ;;
  Ok (mk_Function (def_name d) (def_start d) (def_path d) (PyStr.join newline source)).

(** [FunctionSearchSearchfoxAPI.definitions_to_results] *)
Definition definitions_to_results (env : remote) (commit_hash : string)
    (definitions : list definition) : result (list Function_) :=
  mapM (definition_to_result env commit_hash) definitions.

(** [FunctionSearchSearchfoxAPI.get_function_by_line] *)
Definition get_function_by_line (env : remote) (commit_hash path : string)
    (line : Z) : result (list Function_) :=
  definition <- find_function_for_line env (rev_or_tip commit_hash) path line ;;
  match definition with
  | Some d => definitions_to_results env commit_hash [d]
  | None => Ok []
  end.

(** [sum((get_functions(...) for path in paths), [])] *)
Fixpoint concat_functions (env : remote) (commit_hash symbol_name : string)
    (paths : list string) : result (list definition) :=
  match paths with
  | [] => Ok []
  | p :: ps =>
      fs <- get_functions env commit_hash p (Some symbol_name) ;;
      rest <- concat_functions env commit_hash symbol_name ps ;;
      Ok (fs ++ rest)%list
  end.

(** [search(commit_hash, symbol_name)] *)
Definition search (tbl : ext_table) (env : remote) (commit_hash symbol_name : string)
    : result (list definition) :=
  let r := http_search env (search_url symbol_name) in
  raise_for_status (search_status r) ;;;
  match search_results r with
  | None => Err ParseError
  | Some results =>
      concat_functions env commit_hash symbol_name
        (definition_paths tbl symbol_name results)
  end.

(** [FunctionSearchSearchfoxAPI.get_function_by_name] *)
Definition get_function_by_name (tbl : ext_table) (env : remote)
    (commit_hash path function_name : string) : result (list Function_) :=
  definitions <- search tbl env (rev_or_tip commit_hash) function_name ;;
  definitions_to_results env commit_hash definitions.

(** ** A fixture: one rendered file with nested scopes *)

Definition line_anchor (n : string) : element := Elem [("id", "line-" ++ n)] [].

(** Scope [A] spans lines 1 to 100 and contains scope [B], lines 10 to 20. *)
Definition ex_file : element :=
  Elem [("id", "file")]
    [Elem [("data-nesting-sym", "#A")]
       [line_anchor "1";
        Elem [("data-nesting-sym", "#B")] [line_anchor "10"; line_anchor "20"];
        line_anchor "100"]].

Definition ex_text : string := "l1" ++ newline ++ "l2" ++ newline ++ "l3".

(** [a.js] is indexed and fetchable, [missing.js] has no file view, and
    [gone.js] has a file view but no raw content. *)
Definition ex_env : remote := {|
  http_view := fun url =>
    if String.eqb url (source_url "a.js") || String.eqb url (source_url "gone.js")
    then mk_view_response 200 [ex_file]
    else mk_view_response 404 [];
  http_search := fun _ =>
    mk_search_response 200
      (Some [("normal", [("Definitions (B)", [mk_hit "a.js" "function B() {"])])]);
  get_file := fun _ path =>
    if String.eqb path "a.js" then Ok ex_text else Err (FetchError "404");
|}.

(** A file view that answers 500 for every path. *)
Definition ex_env_500 : remote :=
  mk_remote (fun _ => mk_view_response 500 []) (http_search ex_env) (get_file ex_env).

(** A file view whose page holds two [#file] elements. *)
Definition ex_env_two_files : remote :=
  mk_remote (fun _ => mk_view_response 200 [ex_file; ex_file])
    (http_search ex_env) (get_file ex_env).

(** A [#file] element holding an annotation with no child. *)
Definition ex_empty_file : element :=
  Elem [("id", "file")] [Elem [("data-nesting-sym", "#E")] []].


(** * Properties *)

(** ** General lemmas *)

Lemma mapM_Forall2 {A B} (f : A -> result B) (l : list A) (l' : list B) :
  mapM f l = Ok l' -> Forall2 (fun x y => f x = Ok y) l l'.
Proof.
  revert l'; induction l as [|x l IH]; intros l' H; simpl in H.
  - injection H as <-; constructor.
  - destruct (f x) as [y|e] eqn:Hf; simpl in H; [|discriminate].
    destruct (mapM f l) as [ys|e] eqn:Hm; simpl in H; [|discriminate].
    injection H as <-; constructor; auto.
Qed.

Lemma Forall2_exists_left {A B} (P : A -> B -> Prop) (l : list A) (l' : list B) :
  Forall2 P l l' -> Forall (fun y => exists x, In x l /\ P x y) l'.
Proof.
  induction 1 as [|x y l l' Hxy _ IH]; constructor.
  - exists x; split; [left; reflexivity | exact Hxy].
  - eapply Forall_impl; [|exact IH].
    intros z (w & Hw & Hwz); exists w; split; [right; exact Hw | exact Hwz].
Qed.

Lemma dedup_In (x : string) (l : list string) : In x (dedup l) <-> In x l.
Proof.
  induction l as [|y l IH]; simpl; [tauto|].
  destruct (existsb (String.eqb y) l) eqn:E.
  - rewrite IH; split; [tauto|].
    intros [<-|H]; [|exact H].
    apply existsb_exists in E as (z & Hz & Hyz).
    apply String.eqb_eq in Hyz; subst; exact Hz.
  - simpl; rewrite IH; tauto.
Qed.

Lemma dedup_NoDup (l : list string) : NoDup (dedup l).
Proof.
  induction l as [|y l IH]; simpl; [constructor|].
  destruct (existsb (String.eqb y) l) eqn:E; [exact IH|].
  constructor; [|exact IH].
  rewrite dedup_In; intros Hin.
  assert (existsb (String.eqb y) l = true) as E'
    by (apply existsb_exists; exists y; split; [exact Hin | apply String.eqb_refl]).
  congruence.
Qed.

(** ** Enclosing-scope selection *)

Ltac sel_close :=
  repeat split; auto; try lia;
  try (intros g [<-|Hg] Hcg; auto; try congruence; lia);
  try (intros g []).

Lemma select_fold_some (line : Z) (fs : list definition) (acc : option definition)
    (f : definition) :
  fold_left (select_step line) fs acc = Some f ->
  (acc = Some f /\
     forall g, In g fs -> contains_line line g = true -> def_start g <= def_start f)
  \/ (exists pre suf, fs = (pre ++ f :: suf)%list /\ contains_line line f = true
      /\ match acc with Some s => def_start s < def_start f | None => True end
      /\ (forall g, In g pre -> contains_line line g = true -> def_start g < def_start f)
      /\ (forall g, In g suf -> contains_line line g = true -> def_start g <= def_start f)).
Proof.
  revert acc; induction fs as [|x fs IH]; intros acc H; simpl in H.
  - left; split; [exact H | intros g []].
  - specialize (IH _ H).
    unfold select_step in IH.
    destruct (contains_line line x) eqn:Hx.
    + destruct acc as [s|].
      * destruct (def_start s <? def_start x) eqn:Hsx.
        -- apply Z.ltb_lt in Hsx.
           destruct IH as [[Heq Hall] | (pre & suf & -> & Hf & Hb & Hpre & Hsuf)].
           ++ injection Heq as ->.
              right; exists [], fs; sel_close.
           ++ right; exists (x :: pre), suf; sel_close.
        -- apply Z.ltb_ge in Hsx.
           destruct IH as [[Heq Hall] | (pre & suf & -> & Hf & Hb & Hpre & Hsuf)].
           ++ injection Heq as ->.
              left; split; [reflexivity|].
              intros g [<-|Hg] Hcg; auto.
           ++ right; exists (x :: pre), suf; sel_close.
      * destruct IH as [[Heq Hall] | (pre & suf & -> & Hf & Hb & Hpre & Hsuf)].
        -- injection Heq as ->.
           right; exists [], fs; sel_close.
        -- right; exists (x :: pre), suf; sel_close.
    + destruct IH as [[Heq Hall] | (pre & suf & -> & Hf & Hb & Hpre & Hsuf)].
      * left; split; [exact Heq|].
        intros g [<-|Hg] Hcg; [congruence | auto].
      * right; exists (x :: pre), suf; sel_close.
Qed.

Lemma select_fold_none (line : Z) (fs : list definition) (acc : option definition) :
  fold_left (select_step line) fs acc = None <->
  acc = None /\ forall g, In g fs -> contains_line line g = false.
Proof.
  revert acc; induction fs as [|x fs IH]; intros acc; simpl.
  - split; [intros H; split; [exact H | intros g []] | tauto].
  - rewrite IH; unfold select_step.
    destruct (contains_line line x) eqn:Hx.
    + split.
      * intros [Hacc _]; destruct acc as [s|];
          [destruct (def_start s <? def_start x); discriminate | discriminate].
      * intros [_ Hall]; specialize (Hall x (or_introl eq_refl)); congruence.
    + split.
      * intros [Hacc Hall]; split; [exact Hacc|].
        intros g [<-|Hg]; auto.
      * intros [Hacc Hall]; split; [exact Hacc|].
        intros g Hg; auto.
Qed.

Lemma find_function_for_line_select (env : remote) (c path : string) (line : Z)
    (functions : list definition) :
  get_functions env c path None = Ok functions ->
  find_function_for_line env c path line = Ok (select_function line functions).
Proof. intros H; unfold find_function_for_line; rewrite H; reflexivity. Qed.

(** ** C3: enclosing-scope resolution *)

(** C3: among the scopes of the file whose [start, end] contains the line,
    [find_function_for_line] returns the one with the largest start line,
    the first one seen among equals (every containing scope before it starts
    strictly earlier, every one after it no later); it returns [None], as a
    normal result, exactly when no scope contains the line. *)
Theorem find_function_for_line_innermost (env : remote) (c path : string)
    (line : Z) (functions : list definition) :
  get_functions env c path None = Ok functions ->
  (forall f, find_function_for_line env c path line = Ok (Some f) ->
     exists pre suf, functions = (pre ++ f :: suf)%list
       /\ contains_line line f = true
       /\ (forall g, In g pre -> contains_line line g = true -> def_start g < def_start f)
       /\ (forall g, In g suf -> contains_line line g = true -> def_start g <= def_start f))
  /\ (find_function_for_line env c path line = Ok None <->
      forall g, In g functions -> contains_line line g = false).
Proof.
  intros Hget; rewrite (find_function_for_line_select _ _ _ _ _ Hget).
  split.
  - intros f Hf; injection Hf as Hf.
    destruct (select_fold_some line functions None f Hf)
      as [[Habs _] | (pre & suf & Heq & Hc & _ & Hpre & Hsuf)]; [discriminate|].
    exists pre, suf; auto.
  - split.
    + intros H; injection H as H.
      apply (proj2 (proj1 (select_fold_none line functions None) H)).
    + intros H; f_equal.
      apply (proj2 (select_fold_none line functions None)); auto.
Qed.

Lemma find_function_for_line_innermost_witness :
  get_functions ex_env "" "a.js" None
    = Ok [mk_definition "A" "a.js" 1 100; mk_definition "B" "a.js" 10 20]
  /\ (exists pre suf, [mk_definition "A" "a.js" 1 100; mk_definition "B" "a.js" 10 20]
        = (pre ++ mk_definition "B" "a.js" 10 20 :: suf)%list)
  /\ (find_function_for_line ex_env "" "a.js" 200 = Ok None <->
      forall g, In g [mk_definition "A" "a.js" 1 100; mk_definition "B" "a.js" 10 20] ->
        contains_line 200 g = false).
Proof.
  split; [vm_compute; reflexivity|].
  pose proof (find_function_for_line_innermost ex_env "" "a.js" 15 _
                (eq_refl : get_functions ex_env "" "a.js" None
                  = Ok [mk_definition "A" "a.js" 1 100; mk_definition "B" "a.js" 10 20]))
    as [Hsome _].
  pose proof (find_function_for_line_innermost ex_env "" "a.js" 200 _
                (eq_refl : get_functions ex_env "" "a.js" None
                  = Ok [mk_definition "A" "a.js" 1 100; mk_definition "B" "a.js" 10 20]))
    as [_ Hnone].
  split; [|exact Hnone].
  destruct (Hsome (mk_definition "B" "a.js" 10 20) eq_refl) as (pre & suf & Heq & _).
  exists pre, suf; exact Heq.
Defined.

(** ** C7: a missing file view is an empty result *)

(** C7: when the rendered file view of [path] answers 404, the scope listing
    is the empty list (no exception), and resolving any line of that file
    gives the empty result list. *)
Theorem file_view_404_empty (env : remote) (c path : string)
    (symbol_name : option string) (line : Z) :
  view_status (http_view env (source_url path)) = 404 ->
  get_functions env c path symbol_name = Ok []
  /\ get_function_by_line env c path line = Ok [].
Proof.
  intros H404.
  assert (Hget : forall c' s, get_functions env c' path s = Ok []).
  { intros c' s; unfold get_functions; rewrite H404; reflexivity. }
  split; [apply Hget|].
  unfold get_function_by_line, find_function_for_line.
  rewrite Hget; reflexivity.
Qed.

Lemma file_view_404_empty_witness :
  view_status (http_view ex_env (source_url "missing.js")) = 404
  /\ get_functions ex_env "" "missing.js" None = Ok []
  /\ get_function_by_line ex_env "" "missing.js" 7 = Ok [].
Proof.
  assert (H : view_status (http_view ex_env (source_url "missing.js")) = 404)
    by reflexivity.
  split; [exact H|].
  exact (file_view_404_empty ex_env "" "missing.js" None 7 H).
Defined.

(** ** C8: a failing raw-content fetch propagates *)

(** C8: when [get_function_by_line] resolves a scope but fetching the raw
    content of its file raises, the exception reaches the caller unchanged;
    it is not turned into an empty list. *)
Theorem raw_fetch_failure_propagates (env : remote) (c path : string) (line : Z)
    (d : definition) (e : exn) :
  find_function_for_line env (rev_or_tip c) path line = Ok (Some d) ->
  get_file env (rev_or_tip c) (def_path d) = Err e ->
  get_function_by_line env c path line = Err e.
Proof.
  intros Hfind Hfile.
  unfold get_function_by_line; rewrite Hfind; simpl.
  unfold definitions_to_results; simpl.
  unfold definition_to_result, extract_source.
  rewrite Hfile; reflexivity.
Qed.

Lemma raw_fetch_failure_propagates_witness :
  get_function_by_line ex_env "" "gone.js" 15 = Err (FetchError "404").
Proof.
  apply (raw_fetch_failure_propagates ex_env "" "gone.js" 15
           (mk_definition "B" "gone.js" 10 20)); vm_compute; reflexivity.
Defined.

(** ** C9: the revision does not reach the index *)

(** C9: the scope listing, the enclosing-scope resolution and the index
    query ([search]) depend on the remote responses only, never on the
    revision: two revisions give the same results against the same
    responses. Only the raw-content fetch of [definitions_to_results] takes
    the revision, through [commit_hash or "tip"], which maps the empty
    revision to "tip". *)
Theorem revision_not_used_by_index (tbl : ext_table) (env env' : remote)
    (c1 c2 path symbol_name : string) (sym : option string) (line : Z)
    (ds : list definition) :
  (http_view env (source_url path) = http_view env' (source_url path) ->
   get_functions env c1 path sym = get_functions env' c2 path sym
   /\ find_function_for_line env c1 path line = find_function_for_line env' c2 path line)
  /\ (http_view env = http_view env' -> http_search env = http_search env' ->
      search tbl env c1 symbol_name = search tbl env' c2 symbol_name)
  /\ (rev_or_tip c1 = rev_or_tip c2 ->
      definitions_to_results env c1 ds = definitions_to_results env c2 ds)
  /\ rev_or_tip "" = "tip".
Proof.
  assert (Hgf : forall e e' c c' p s,
             http_view e (source_url p) = http_view e' (source_url p) ->
             get_functions e c p s = get_functions e' c' p s).
  { intros e e' c c' p s H; unfold get_functions; rewrite H; reflexivity. }
  split; [|split; [|split]].
  - intros H; split; [apply Hgf; exact H|].
    unfold find_function_for_line; rewrite (Hgf env env' c1 c2 path None H);
      reflexivity.
  - intros Hv Hs; unfold search; rewrite Hs.
    destruct (raise_for_status _); [|reflexivity]; simpl.
    destruct (search_results _) as [results|]; [|reflexivity].
    induction (definition_paths tbl symbol_name results) as [|p ps IH]; simpl;
      [reflexivity|].
    rewrite (Hgf env env' c1 c2 p (Some symbol_name)) by (rewrite Hv; reflexivity).
    destruct (get_functions env' c2 p (Some symbol_name)); simpl; [|reflexivity].
    rewrite IH; reflexivity.
  - intros Hr; unfold definitions_to_results, definition_to_result.
    rewrite Hr; reflexivity.
  - reflexivity.
Qed.

Lemma revision_not_used_by_index_witness :
  get_functions ex_env "abc" "a.js" None = get_functions ex_env "def" "a.js" None
  /\ search SOURCE_CODE_TYPES_TO_EXT ex_env "abc" "B"
     = search SOURCE_CODE_TYPES_TO_EXT ex_env "def" "B".
Proof.
  destruct (revision_not_used_by_index SOURCE_CODE_TYPES_TO_EXT ex_env ex_env
              "abc" "def" "a.js" "B" None 15 [])
    as (H1 & H2 & _ & _).
  split; [apply H1; reflexivity | apply H2; reflexivity].
Defined.

(** ** Line ranges *)

Lemma lines_in_range_from (n s e : Z) (ls : list string) :
  s <= n -> lines_in_range n s e ls = firstn (Z.to_nat (e - n)) ls.
Proof.
  revert n; induction ls as [|l ls IH]; intros n Hsn; simpl.
  - destruct (Z.to_nat (e - n)); reflexivity.
  - destruct (n <? e) eqn:He.
    + apply Z.ltb_lt in He.
      replace (s <=? n) with true by (symmetry; apply Z.leb_le; lia); simpl.
      replace (Z.to_nat (e - n)) with (S (Z.to_nat (e - (n + 1)))) by lia.
      simpl; rewrite IH by lia; reflexivity.
    + apply Z.ltb_ge in He.
      rewrite andb_false_r.
      replace (Z.to_nat (e - n)) with O by lia; simpl.
      rewrite IH by lia.
      replace (Z.to_nat (e - (n + 1))) with O by lia; reflexivity.
Qed.

Lemma lines_in_range_spec (n s e : Z) (ls : list string) :
  n <= s ->
  lines_in_range n s e ls = firstn (Z.to_nat (e - s)) (skipn (Z.to_nat (s - n)) ls).
Proof.
  revert n; induction ls as [|l ls IH]; intros n Hns.
  - simpl; destruct (Z.to_nat (s - n)), (Z.to_nat (e - s)); reflexivity.
  - destruct (Z.eq_dec n s) as [->|Hne].
    + rewrite lines_in_range_from by lia.
      replace (s - s) with 0 by lia; reflexivity.
    + simpl.
      replace (s <=? n) with false by (symmetry; apply Z.leb_gt; lia); simpl.
      rewrite IH by lia.
      replace (Z.to_nat (s - n)) with (S (Z.to_nat (s - (n + 1)))) by lia.
      reflexivity.
Qed.

Lemma extract_source_lines (path : string) (s e : Z) (read : string -> result string)
    (text : string) :
  read path = Ok text -> 1 <= s ->
  extract_source path s e read
    = Ok (firstn (Z.to_nat (e - s)) (skipn (Z.to_nat (s - 1)) (split_lines text))).
Proof.
  intros Hr Hs; unfold extract_source; rewrite Hr; simpl.
  rewrite lines_in_range_spec by lia; reflexivity.
Qed.

Lemma extract_source_empty (path : string) (s e : Z) (read : string -> result string)
    (text : string) :
  read path = Ok text -> e <= s -> extract_source path s e read = Ok [].
Proof.
  intros Hr Hes; unfold extract_source; rewrite Hr; simpl; f_equal.
  generalize 1 as n; induction (split_lines text) as [|l ls IH]; intros n; simpl;
    [reflexivity|].
  replace ((s <=? n) && (n <? e)) with false; [apply IH|].
  symmetry; apply andb_false_iff.
  destruct (Z.le_gt_cases s n); [right; apply Z.ltb_ge | left; apply Z.leb_gt]; lia.
Qed.

(** ** C5: the end bound passed to [extract_source] *)

(** C5: [definitions_to_results] passes [end + 1] as the end bound when the
    scope's start and end differ and [end] itself when they are equal; so a
    single-line scope extracts no line at all, and a scope [10, 20] of a
    file of at least 20 lines extracts 11 lines. *)
Theorem end_bound_extract (d : definition) (read : string -> result string)
    (text : string) :
  read (def_path d) = Ok text ->
  (def_start d <> def_end d -> end_bound d = def_end d + 1)
  /\ (def_start d = def_end d -> end_bound d = def_end d)
  /\ (def_start d = def_end d ->
      extract_source (def_path d) (def_start d) (end_bound d) read = Ok [])
  /\ (def_start d = 10 -> def_end d = 20 -> 20 <= Z.of_nat (length (split_lines text)) ->
      exists L, extract_source (def_path d) (def_start d) (end_bound d) read = Ok L
                /\ length L = 11%nat).
Proof.
  intros Hr; unfold end_bound.
  split; [|split; [|split]].
  - intros Hne; replace (def_end d =? def_start d) with false
      by (symmetry; apply Z.eqb_neq; lia); reflexivity.
  - intros Heq; rewrite Heq, Z.eqb_refl; reflexivity.
  - intros Heq; rewrite Heq, Z.eqb_refl; simpl.
    apply (extract_source_empty _ _ _ _ text Hr); lia.
  - intros Hs He Hlen; rewrite Hs, He; simpl.
    rewrite (extract_source_lines _ _ _ _ text Hr) by lia.
    eexists; split; [reflexivity|].
    rewrite length_firstn, length_skipn.
    change (Z.to_nat (21 - 10)) with 11%nat; change (Z.to_nat (10 - 1)) with 9%nat; lia.
Qed.

Lemma end_bound_extract_witness :
  extract_source "a.js" 2 (end_bound (mk_definition "g" "a.js" 2 2))
    (fun p => get_file ex_env "" p) = Ok [].
Proof.
  exact (proj1 (proj2 (proj2 (end_bound_extract (mk_definition "g" "a.js" 2 2)
           (fun p => get_file ex_env "" p) ex_text eq_refl))) eq_refl).
Defined.

(** ** C2: the source text of a resolved function *)

(** C2 (counterexample): the single-line scope [2, 2] of [ex_text] resolves
    to an empty source text, not to its line [l2]. *)
Lemma single_line_scope_source_is_empty :
  definitions_to_results ex_env "" [mk_definition "g" "a.js" 2 2]
    = Ok [mk_Function "g" 2 "a.js" ""]
  /\ PyStr.join newline (firstn 1 (skipn 1 (split_lines ex_text))) = "l2".
Proof. split; vm_compute; reflexivity. Qed.

(** C2 (amended): every function built by [definitions_to_results] (so by
    [get_function_by_line] and [get_function_by_name]) keeps its scope's
    name, start and path, and its source text is the newline-joined list
    [L] of lines of the fetched file where: [L] is empty when the scope's
    start and end are equal; when [1 <= start < end], [L] is the lines
    [start] to [end], [end] included, and has [end - start + 1] lines when
    the file has at least [end] lines. *)
Theorem definitions_to_results_source (env : remote) (c : string)
    (ds : list definition) (fs : list Function_) :
  definitions_to_results env c ds = Ok fs ->
  Forall2 (fun d f =>
    fn_name f = def_name d /\ fn_start f = def_start d /\ fn_path f = def_path d
    /\ exists text L,
         get_file env (rev_or_tip c) (def_path d) = Ok text
         /\ fn_source f = PyStr.join newline L
         /\ (def_start d = def_end d -> L = [])
         /\ (1 <= def_start d < def_end d ->
             L = firstn (Z.to_nat (def_end d - def_start d + 1))
                   (skipn (Z.to_nat (def_start d - 1)) (split_lines text))
             /\ (def_end d <= Z.of_nat (length (split_lines text)) ->
                 Z.of_nat (length L) = def_end d - def_start d + 1))) ds fs.
Proof.
  intros H; apply mapM_Forall2 in H.
  eapply Forall2_impl; [|exact H]; clear.
  intros d f Hd; unfold definition_to_result in Hd.
  destruct (get_file env (rev_or_tip c) (def_path d)) as [text|e] eqn:Hf;
    [|unfold extract_source in Hd; rewrite Hf in Hd; discriminate].
  destruct (extract_source (def_path d) (def_start d) (end_bound d)
              (fun path => get_file env (rev_or_tip c) path)) as [L|e] eqn:Hx;
    simpl in Hd; [|discriminate].
  injection Hd as <-; simpl.
  split; [reflexivity|]; split; [reflexivity|]; split; [reflexivity|].
  exists text, L; split; [reflexivity|]; split; [reflexivity|].
  destruct (end_bound_extract d (fun path => get_file env (rev_or_tip c) path) text Hf)
    as (Hne & _ & Heq & _).
  split.
  - intros Hse; rewrite (Heq Hse) in Hx; injection Hx as <-; reflexivity.
  - intros Hlt; rewrite (Hne ltac:(lia)) in Hx.
    rewrite (extract_source_lines _ _ _ _ text Hf) in Hx by lia.
    injection Hx as <-.
    replace (def_end d + 1 - def_start d) with (def_end d - def_start d + 1) by lia.
    split; [reflexivity|].
    intros Hlen; rewrite length_firstn, length_skipn; lia.
Qed.

Lemma definitions_to_results_source_witness :
  Forall2 (fun d f => fn_source f = PyStr.join newline
                        (firstn (Z.to_nat (def_end d - def_start d + 1))
                           (skipn (Z.to_nat (def_start d - 1)) (split_lines ex_text))))
    [mk_definition "g" "a.js" 2 3] [mk_Function "g" 2 "a.js" ("l2" ++ newline ++ "l3")].
Proof.
  pose proof (definitions_to_results_source ex_env "" [mk_definition "g" "a.js" 2 3]
                [mk_Function "g" 2 "a.js" ("l2" ++ newline ++ "l3")]
                ltac:(vm_compute; reflexivity)) as H.
  inversion H as [|d f ds fs Hdf Hrest]; subst.
  constructor; [|constructor].
  destruct Hdf as (_ & _ & _ & text & L & Hf & Hs & _ & Hlt).
  vm_compute in Hf; injection Hf as <-.
  destruct (Hlt ltac:(simpl; lia)) as [HL _].
  subst L; exact Hs.
Defined.

(** ** The definition classifier *)

Lemma search_definitions_In (tbl : ext_table) (symbol_name : string)
    (results : results_obj) (v : hit) :
  In v (search_definitions tbl symbol_name results) <->
  exists type_ subs sub_type values,
    In type_ categories /\ lookup type_ results = Some subs
    /\ In (sub_type, values) subs /\ bucket_matches symbol_name sub_type = true
    /\ In v values /\ accept tbl symbol_name v = true.
Proof.
  unfold search_definitions; rewrite in_flat_map; split.
  - intros (type_ & Ht & Hv).
    destruct (lookup type_ results) as [subs|] eqn:Hl; [|destruct Hv].
    apply in_flat_map in Hv as ([sub_type values] & Hsv & Hv).
    destruct (bucket_matches symbol_name sub_type) eqn:Hb; [|destruct Hv].
    apply filter_In in Hv as [Hv Ha].
    exists type_, subs, sub_type, values; auto 7.
  - intros (type_ & subs & sub_type & values & Ht & Hl & Hsv & Hb & Hv & Ha).
    exists type_; split; [exact Ht|]; rewrite Hl.
    apply in_flat_map; exists (sub_type, values); split; [exact Hsv|].
    rewrite Hb; apply filter_In; auto.
Qed.

(** C1 (failing input): in the Rust branch the test is the plain string
    ["fn {symbol_name}"], not an f-string, so the Rust definition line
    [fn foo() {] of [src/lib.rs] is rejected for the symbol [foo] (it has no
    pipe) and its file is not among the classifier's paths, although the
    line contains [fn ] immediately followed by [foo]. *)
Theorem rust_fn_definition_rejected :
  PyStr.contains ("fn " ++ "foo") "fn foo() {" = true
  /\ accept SOURCE_CODE_TYPES_TO_EXT "foo" (mk_hit "src/lib.rs" "fn foo() {") = false
  /\ definition_paths SOURCE_CODE_TYPES_TO_EXT "foo"
       [("normal", [("Definitions (foo)", [mk_hit "src/lib.rs" "fn foo() {"])])] = [].
Proof. repeat split; vm_compute; reflexivity. Qed.

(** C4 (counterexample): a hit in the bucket of the different symbol
    [barfoo] is a candidate for the query [foo]: its bucket key ends with
    [foo)], and the C++ line [void barfoo() {] passes the [foo(] test. *)
Lemma other_symbol_bucket_is_candidate :
  bucket_matches "foo" "Definitions (barfoo)" = true
  /\ definition_paths SOURCE_CODE_TYPES_TO_EXT "foo"
       [("normal", [("Definitions (barfoo)", [mk_hit "x.cpp" "void barfoo() {"])])]
     = ["x.cpp"].
Proof. split; vm_compute; reflexivity. Qed.

(** C4 (amended): a hit is a candidate exactly when it lies, in the
    [normal], [thirdparty] or [test] category, in a bucket whose key starts
    with [Definitions] and ends with [NAME)]; the hits the classifier keeps
    are exactly the candidates that pass the per-hit test. *)
Theorem search_definitions_candidates (tbl : ext_table) (symbol_name : string)
    (results : results_obj) (v : hit) :
  In v (search_definitions tbl symbol_name results) <->
  exists type_ subs sub_type values,
    In type_ ["normal"; "thirdparty"; "test"] /\ lookup type_ results = Some subs
    /\ In (sub_type, values) subs
    /\ PyStr.startswith sub_type "Definitions" = true
    /\ PyStr.endswith sub_type (symbol_name ++ ")") = true
    /\ In v values /\ accept tbl symbol_name v = true.
Proof.
  rewrite search_definitions_In; split.
  - intros (t & s & k & vs & Ht & Hl & Hk & Hb & Hv & Ha).
    apply andb_true_iff in Hb as [Hb1 Hb2].
    exists t, s, k, vs; auto 8.
  - intros (t & s & k & vs & Ht & Hl & Hk & Hb1 & Hb2 & Hv & Ha).
    exists t, s, k, vs; repeat split; auto.
    unfold bucket_matches; rewrite Hb1, Hb2; reflexivity.
Qed.

(** C6: a hit whose line does not contain the symbol name is rejected
    whatever its extension, every kept hit contains it and passed the
    test, and the classifier's paths are duplicate-free and are exactly the
    paths of the kept hits. *)
Theorem definition_paths_exact (tbl : ext_table) (symbol_name : string)
    (results : results_obj) :
  (forall v, PyStr.contains symbol_name (hit_line v) = false ->
             accept tbl symbol_name v = false)
  /\ (forall v, In v (search_definitions tbl symbol_name results) ->
                PyStr.contains symbol_name (hit_line v) = true
                /\ accept tbl symbol_name v = true)
  /\ NoDup (definition_paths tbl symbol_name results)
  /\ (forall p, In p (definition_paths tbl symbol_name results) <->
       exists v, In v (search_definitions tbl symbol_name results) /\ hit_path v = p).
Proof.
  assert (Hpre : forall v, PyStr.contains symbol_name (hit_line v) = false ->
                           accept tbl symbol_name v = false).
  { intros v H; unfold accept; rewrite H; reflexivity. }
  split; [exact Hpre|]; split; [|split].
  - intros v Hv.
    apply search_definitions_In in Hv as (_ & _ & _ & _ & _ & _ & _ & _ & _ & Ha).
    split; [|exact Ha].
    destruct (PyStr.contains symbol_name (hit_line v)) eqn:Hc; [reflexivity|].
    rewrite (Hpre v Hc) in Ha; discriminate.
  - apply dedup_NoDup.
  - intros p; unfold definition_paths; rewrite dedup_In, in_map_iff.
    split; intros (v & H1 & H2); exists v; auto.
Qed.

Lemma definition_paths_exact_witness :
  accept SOURCE_CODE_TYPES_TO_EXT "foo" (mk_hit "a.py" "lambda x: x") = false.
Proof.
  apply (proj1 (definition_paths_exact SOURCE_CODE_TYPES_TO_EXT "foo" [])).
  vm_compute; reflexivity.
Defined.

(** ** Function names *)

Lemma substring_whole (s : string) : String.substring 0 (String.length s) s = s.
Proof. induction s as [|ch s IH]; simpl; [reflexivity | rewrite IH; reflexivity]. Qed.

Lemma drop1_cons (ch : ascii) (r : string) : PyStr.drop 1 (String ch r) = r.
Proof.
  unfold PyStr.drop; simpl.
  rewrite Nat.sub_0_r; apply substring_whole.
Qed.

Lemma string_cons_neq (ch : ascii) (r : string) : r <> String ch r.
Proof.
  intros H; apply (f_equal String.length) in H; simpl in H; lia.
Qed.

(** C10: every scope listed by [get_functions] comes from an element of
    the [#file] view carrying a [data-nesting-sym] value, and its name is
    that value with its first character removed (so never the full value
    when the value is not empty); [definitions_to_results] gives each
    [Function] its scope's name. *)
Theorem function_name_strips_sigil (env : remote) (c path : string)
    (symbol_name : option string) (ds : list definition) :
  get_functions env c path symbol_name = Ok ds ->
  Forall (fun d => exists file e a,
      view_file (http_view env (source_url path)) = [file]
      /\ In e (iterdescendants file)
      /\ lookup "data-nesting-sym" (attrib_of e) = Some a
      /\ (forall ch r, a = String ch r -> def_name d = r /\ def_name d <> a)
      /\ (a = EmptyString -> def_name d = EmptyString)) ds
  /\ (forall c' fs, definitions_to_results env c' ds = Ok fs ->
        Forall2 (fun d f => fn_name f = def_name d) ds fs).
Proof.
  intros H; split.
  - unfold get_functions in H.
    destruct (view_status (http_view env (source_url path)) =? 404);
      [injection H as <-; constructor|].
    destruct (raise_for_status _); simpl in H; [|discriminate].
    destruct (view_file (http_view env (source_url path))) as [|file [|f2 fs']] eqn:Hv;
      try discriminate.
    apply mapM_Forall2, Forall2_exists_left in H.
    eapply Forall_impl; [|exact H]; clear H.
    intros d (w & Hin & Hwd).
    apply filter_In in Hin as [Hin Hsym].
    unfold sym_wrap_to_definition in Hwd.
    destruct (lookup "data-nesting-sym" (attrib_of w)) as [sym|] eqn:Ha; [|discriminate].
    destruct (get_line_number (children_of w) Start); cbn [bind] in Hwd; [|discriminate].
    destruct (get_line_number (children_of w) End_); cbn [bind] in Hwd; [|discriminate].
    injection Hwd as <-; simpl.
    exists file, w, sym; split; [reflexivity|]; split; [exact Hin|]; split; [exact Ha|].
    split.
    + intros ch r ->; split; [apply drop1_cons|].
      rewrite drop1_cons; apply string_cons_neq.
    + intros ->; reflexivity.
  - intros c' fs Hfs; apply mapM_Forall2 in Hfs.
    eapply Forall2_impl; [|exact Hfs]; clear.
    intros d f Hd; unfold definition_to_result in Hd.
    destruct (extract_source _ _ _ _); simpl in Hd; [|discriminate].
    injection Hd as <-; reflexivity.
Qed.

Lemma function_name_strips_sigil_witness :
  Forall2 (fun d f => fn_name f = def_name d)
    [mk_definition "A" "a.js" 1 100; mk_definition "B" "a.js" 10 20]
    [mk_Function "A" 1 "a.js" ex_text; mk_Function "B" 10 "a.js" ""].
Proof.
  apply (proj2 (function_name_strips_sigil ex_env "" "a.js" None
                  [mk_definition "A" "a.js" 1 100; mk_definition "B" "a.js" 10 20]
                  ltac:(vm_compute; reflexivity)) "").
  vm_compute; reflexivity.
Defined.

(** ** Further properties of the scope listing *)

Lemma Forall2_in_left {A B} (R : A -> B -> Prop) (l : list A) (l' : list B) (x : A) :
  Forall2 R l l' -> In x l -> exists y, In y l' /\ R x y.
Proof.
  induction 1 as [|a b l l' Hab _ IH]; intros Hin; [destruct Hin|].
  destruct Hin as [<-|Hin].
  - exists b; split; [left; reflexivity | exact Hab].
  - destruct (IH Hin) as (y & Hy & Hxy); exists y; split; [right; exact Hy | exact Hxy].
Qed.

(** Shape of a successful [get_functions]: either the view answered 404 and
    nothing is listed, or the view has one [#file] element and the listing
    is built from its filtered descendants. *)
Lemma get_functions_ok_inv (env : remote) (c path : string) (s : option string)
    (ds : list definition) :
  get_functions env c path s = Ok ds ->
  (view_status (http_view env (source_url path)) = 404 /\ ds = [])
  \/ (view_status (http_view env (source_url path)) <> 404
      /\ exists file, view_file (http_view env (source_url path)) = [file]
      /\ mapM (sym_wrap_to_definition path)
           (filter (is_sym_wrap s) (iterdescendants file)) = Ok ds).
Proof.
  unfold get_functions; intros H.
  destruct (view_status (http_view env (source_url path)) =? 404) eqn:H404.
  - left; apply Z.eqb_eq in H404; injection H as <-; split; [exact H404 | reflexivity].
  - right; apply Z.eqb_neq in H404; split; [exact H404|].
    destruct (raise_for_status _); simpl in H; [|discriminate].
    destruct (view_file (http_view env (source_url path))) as [|file [|f2 fs']];
      try discriminate.
    exists file; split; [reflexivity | exact H].
Qed.

Lemma sym_wrap_to_definition_ok (path : string) (w : element) (d : definition) :
  sym_wrap_to_definition path w = Ok d ->
  def_path d = path /\ exists sym, lookup "data-nesting-sym" (attrib_of w) = Some sym
                                   /\ def_name d = PyStr.drop 1 sym.
Proof.
  unfold sym_wrap_to_definition; intros H.
  destruct (lookup "data-nesting-sym" (attrib_of w)) as [sym|]; [|discriminate].
  destruct (get_line_number (children_of w) Start); cbn [bind] in H; [|discriminate].
  destruct (get_line_number (children_of w) End_); cbn [bind] in H; [|discriminate].
  injection H as <-; split; [reflexivity|]; exists sym; split; reflexivity.
Qed.

(** Every scope listed by [get_functions] carries the requested path, and
    comes from a [data-nesting-sym] annotation of the [#file] element; with
    a name filter, that annotation's value contains the name. *)
Theorem get_functions_listed_scopes (env : remote) (c path : string)
    (symbol_name : option string) (ds : list definition) :
  get_functions env c path symbol_name = Ok ds ->
  Forall (fun d => def_path d = path
    /\ exists file w sym,
         view_file (http_view env (source_url path)) = [file]
         /\ In w (iterdescendants file)
         /\ lookup "data-nesting-sym" (attrib_of w) = Some sym
         /\ def_name d = PyStr.drop 1 sym
         /\ match symbol_name with
            | Some s => PyStr.contains s sym = true
            | None => True
            end) ds.
Proof.
  intros H; apply get_functions_ok_inv in H
    as [[_ ->] | (_ & file & Hv & H)]; [constructor|].
  apply mapM_Forall2, Forall2_exists_left in H.
  eapply Forall_impl; [|exact H]; clear H.
  intros d (w & Hin & Hwd).
  apply filter_In in Hin as [Hin Hsym].
  apply sym_wrap_to_definition_ok in Hwd as (Hp & sym & Hl & Hn).
  split; [exact Hp|].
  exists file, w, sym; repeat split; auto.
  unfold is_sym_wrap in Hsym; rewrite Hl in Hsym.
  destruct symbol_name; [exact Hsym | exact I].
Qed.

Lemma get_functions_listed_scopes_witness :
  Forall (fun d => def_path d = "a.js")
    [mk_definition "B" "a.js" 10 20].
Proof.
  pose proof (get_functions_listed_scopes ex_env "" "a.js" (Some "B")
                [mk_definition "B" "a.js" 10 20] ltac:(vm_compute; reflexivity)) as H.
  eapply Forall_impl; [|exact H]; intros d [Hp _]; exact Hp.
Defined.

(** Filtering by name only drops scopes: when both the filtered and the
    unfiltered listing of a file succeed, every scope of the filtered one is
    in the unfiltered one. *)
Theorem get_functions_filter_incl (env : remote) (c c' path s : string)
    (ds ds' : list definition) :
  get_functions env c path (Some s) = Ok ds ->
  get_functions env c' path None = Ok ds' ->
  incl ds ds'.
Proof.
  intros H H'.
  apply get_functions_ok_inv in H as [[_ ->] | (H404 & file & Hv & H)];
    [intros d []|].
  apply get_functions_ok_inv in H' as [[Habs _] | (_ & file' & Hv' & H')];
    [congruence|].
  rewrite Hv in Hv'; injection Hv' as <-.
  apply mapM_Forall2 in H, H'.
  apply Forall2_exists_left in H.
  intros d Hd.
  destruct (proj1 (Forall_forall _ _) H d Hd) as (w & Hw & Hwd).
  apply filter_In in Hw as [Hw Hsym].
  assert (Hw' : In w (filter (is_sym_wrap None) (iterdescendants file))).
  { apply filter_In; split; [exact Hw|].
    unfold is_sym_wrap in *; destruct (lookup _ _); [reflexivity | discriminate]. }
  destruct (Forall2_in_left _ _ _ w H' Hw') as (d' & Hd' & Hwd').
  rewrite Hwd in Hwd'; injection Hwd' as ->; exact Hd'.
Qed.

Lemma get_functions_filter_incl_witness :
  incl [mk_definition "B" "a.js" 10 20]
       [mk_definition "A" "a.js" 1 100; mk_definition "B" "a.js" 10 20].
Proof.
  apply (get_functions_filter_incl ex_env "" "" "a.js" "B");
    vm_compute; reflexivity.
Defined.

(** A file view answering with an HTTP error status other than 404 makes
    the listing, and so line resolution, fail with that status. *)
Theorem get_functions_http_error (env : remote) (c path : string)
    (symbol_name : option string) (line : Z) :
  let st := view_status (http_view env (source_url path)) in
  400 <= st < 600 -> st <> 404 ->
  get_functions env c path symbol_name = Err (HTTPError st)
  /\ get_function_by_line env c path line = Err (HTTPError st).
Proof.
  intros st Hst H404.
  assert (Hg : forall c' s, get_functions env c' path s = Err (HTTPError st)).
  { intros c' s; unfold get_functions; fold st.
    replace (st =? 404) with false by (symmetry; apply Z.eqb_neq; exact H404).
    unfold raise_for_status.
    replace ((400 <=? st) && (st <? 600)) with true
      by (symmetry; apply andb_true_iff; split; [apply Z.leb_le | apply Z.ltb_lt]; lia).
    reflexivity. }
  split; [apply Hg|].
  unfold get_function_by_line, find_function_for_line; rewrite Hg; reflexivity.
Qed.


Lemma get_functions_http_error_witness :
  get_function_by_line ex_env_500 "" "a.js" 3 = Err (HTTPError 500).
Proof.
  apply (get_functions_http_error ex_env_500 "" "a.js" None 3); simpl; lia.
Defined.

(** A file view whose page does not hold exactly one [#file] element fails
    the listing with the assertion, unless the status is 404 (empty) or an
    HTTP error. *)
Theorem get_functions_single_file_asserted (env : remote) (c path : string)
    (symbol_name : option string) :
  let r := http_view env (source_url path) in
  view_status r <> 404 -> ~ (400 <= view_status r < 600) ->
  length (view_file r) <> 1%nat ->
  get_functions env c path symbol_name = Err AssertionError.
Proof.
  intros r H404 Hst Hlen; unfold get_functions; fold r.
  replace (view_status r =? 404) with false by (symmetry; apply Z.eqb_neq; exact H404).
  unfold raise_for_status.
  replace ((400 <=? view_status r) && (view_status r <? 600)) with false
    by (symmetry; apply andb_false_iff;
        destruct (Z.le_gt_cases 400 (view_status r));
        [right; apply Z.ltb_ge | left; apply Z.leb_gt]; lia).
  simpl; destruct (view_file r) as [|f1 [|f2 fs]]; simpl in Hlen;
    [reflexivity | lia | reflexivity].
Qed.



Lemma get_functions_single_file_asserted_witness :
  get_functions ex_env_two_files "" "a.js" None = Err AssertionError.
Proof.
  apply (get_functions_single_file_asserted ex_env_two_files "" "a.js" None);
    simpl; lia.
Defined.

(** ** Further properties of the façade *)

Lemma get_functions_paths (env : remote) (c path : string) (s : option string)
    (ds : list definition) :
  get_functions env c path s = Ok ds -> Forall (fun d => def_path d = path) ds.
Proof.
  intros H; apply get_functions_ok_inv in H as [[_ ->] | (_ & file & _ & H)];
    [constructor|].
  apply mapM_Forall2, Forall2_exists_left in H.
  eapply Forall_impl; [|exact H].
  intros d (w & _ & Hwd); apply (sym_wrap_to_definition_ok _ _ _ Hwd).
Qed.

Lemma definition_to_result_ok (env : remote) (c : string) (d : definition)
    (f : Function_) :
  definition_to_result env c d = Ok f ->
  fn_name f = def_name d /\ fn_start f = def_start d /\ fn_path f = def_path d.
Proof.
  unfold definition_to_result; intros H.
  destruct (extract_source _ _ _ _); simpl in H; [|discriminate].
  injection H as <-; repeat split.
Qed.

(** Resolving a line gives at most one function; it lies in the requested
    file and starts at or before the line. *)
Theorem get_function_by_line_at_most_one (env : remote) (c path : string) (line : Z)
    (fs : list Function_) :
  get_function_by_line env c path line = Ok fs ->
  (length fs <= 1)%nat /\ Forall (fun f => fn_path f = path /\ fn_start f <= line) fs.
Proof.
  unfold get_function_by_line, find_function_for_line; intros H.
  destruct (get_functions env (rev_or_tip c) path None) as [ds|e] eqn:Hg;
    simpl in H; [|discriminate].
  destruct (select_function line ds) as [d|] eqn:Hs.
  - unfold definitions_to_results in H; simpl in H.
    destruct (definition_to_result env c d) as [f|e] eqn:Hf; simpl in H; [|discriminate].
    injection H as <-.
    apply definition_to_result_ok in Hf as (_ & Hst & Hp).
    destruct (select_fold_some line ds None d Hs)
      as [[Habs _] | (pre & suf & Heq & Hc & _)]; [discriminate|].
    assert (Hin : In d ds) by (rewrite Heq; apply in_or_app; right; left; reflexivity).
    pose proof (proj1 (Forall_forall _ _) (get_functions_paths _ _ _ _ _ Hg) d Hin) as Hpd.
    unfold contains_line in Hc; apply andb_true_iff in Hc as [Hc _].
    apply Z.leb_le in Hc.
    split; [simpl; lia|]; constructor; [split; congruence|constructor].
  - injection H as <-; split; [simpl; lia | constructor].
Qed.

Lemma get_function_by_line_at_most_one_witness :
  (length [mk_Function "B" 10 "a.js" ""] <= 1)%nat.
Proof.
  apply (get_function_by_line_at_most_one ex_env "" "a.js" 15);
    vm_compute; reflexivity.
Defined.

(** A line outside every scope of its file resolves to the empty list,
    whatever the raw-content service would answer. *)
Theorem get_function_by_line_outside_scopes (env : remote) (c path : string)
    (line : Z) (ds : list definition) :
  get_functions env (rev_or_tip c) path None = Ok ds ->
  (forall d, In d ds -> contains_line line d = false) ->
  get_function_by_line env c path line = Ok [].
Proof.
  intros Hg Hout; unfold get_function_by_line, find_function_for_line.
  rewrite Hg; simpl.
  replace (select_function line ds) with (@None definition); [reflexivity|].
  symmetry; apply select_fold_none; split; [reflexivity | exact Hout].
Qed.

Lemma get_function_by_line_outside_scopes_witness :
  get_function_by_line ex_env "" "a.js" 150 = Ok [].
Proof.
  apply (get_function_by_line_outside_scopes ex_env "" "a.js" 150
           [mk_definition "A" "a.js" 1 100; mk_definition "B" "a.js" 10 20]);
    [vm_compute; reflexivity|].
  intros d [<-|[<-|[]]]; reflexivity.
Defined.

Lemma mapM_Err {A B} (f : A -> result B) (l : list A) (x : A) (e : exn) :
  In x l -> f x = Err e -> exists e', mapM f l = Err e'.
Proof.
  induction l as [|y l IH]; intros Hin Hf; [destruct Hin|]; simpl.
  destruct Hin as [->|Hin].
  - rewrite Hf; exists e; reflexivity.
  - destruct (f y) as [b|e']; simpl; [|exists e'; reflexivity].
    destruct (IH Hin Hf) as (e' & ->); exists e'; reflexivity.
Qed.

(** Expanding scopes to functions is all or nothing: if the raw content of
    any scope's file cannot be fetched, no list is returned at all. *)
Theorem definitions_to_results_all_or_nothing (env : remote) (c : string)
    (ds : list definition) (d : definition) (e : exn) :
  In d ds -> get_file env (rev_or_tip c) (def_path d) = Err e ->
  exists e', definitions_to_results env c ds = Err e'.
Proof.
  intros Hin Hf; apply (mapM_Err _ _ d e Hin).
  unfold definition_to_result, extract_source; rewrite Hf; reflexivity.
Qed.

Lemma definitions_to_results_all_or_nothing_witness :
  exists e', definitions_to_results ex_env ""
    [mk_definition "A" "a.js" 1 100; mk_definition "B" "gone.js" 10 20] = Err e'.
Proof.
  apply (definitions_to_results_all_or_nothing ex_env "" _
           (mk_definition "B" "gone.js" 10 20) (FetchError "404"));
    [right; left; reflexivity | reflexivity].
Defined.


(** ** Further properties of the index query *)

(** An HTTP error status of the index query fails [search] with that
    status; a payload that cannot be parsed fails it with the parse error. *)
Theorem search_request_errors (tbl : ext_table) (env : remote)
    (c symbol_name : string) :
  let r := http_search env (search_url symbol_name) in
  (400 <= search_status r < 600 ->
   search tbl env c symbol_name = Err (HTTPError (search_status r)))
  /\ (~ (400 <= search_status r < 600) -> search_results r = None ->
      search tbl env c symbol_name = Err ParseError).
Proof.
  intros r; unfold search; fold r; unfold raise_for_status; split.
  - intros Hst.
    replace ((400 <=? search_status r) && (search_status r <? 600)) with true
      by (symmetry; apply andb_true_iff; split; [apply Z.leb_le | apply Z.ltb_lt]; lia).
    reflexivity.
  - intros Hst Hn.
    replace ((400 <=? search_status r) && (search_status r <? 600)) with false
      by (symmetry; apply andb_false_iff;
          destruct (Z.le_gt_cases 400 (search_status r));
          [right; apply Z.ltb_ge | left; apply Z.leb_gt]; lia).
    simpl; rewrite Hn; reflexivity.
Qed.

Lemma search_request_errors_witness :
  search SOURCE_CODE_TYPES_TO_EXT
    (mk_remote (http_view ex_env) (fun _ => mk_search_response 503 None) (get_file ex_env))
    "" "B" = Err (HTTPError 503).
Proof.
  apply (proj1 (search_request_errors SOURCE_CODE_TYPES_TO_EXT
    (mk_remote (http_view ex_env) (fun _ => mk_search_response 503 None) (get_file ex_env))
    "" "B")); simpl; lia.
Defined.

Lemma concat_functions_paths (env : remote) (c s : string) (ps : list string)
    (ds : list definition) :
  concat_functions env c s ps = Ok ds -> Forall (fun d => In (def_path d) ps) ds.
Proof.
  revert ds; induction ps as [|p ps IH]; intros ds H; simpl in H.
  - injection H as <-; constructor.
  - destruct (get_functions env c p (Some s)) as [fs|e] eqn:Hg; simpl in H; [|discriminate].
    destruct (concat_functions env c s ps) as [rest|e] eqn:Hr; simpl in H; [|discriminate].
    injection H as <-; apply Forall_app; split.
    + eapply Forall_impl; [|exact (get_functions_paths _ _ _ _ _ Hg)].
      intros d ->; left; reflexivity.
    + eapply Forall_impl; [|exact (IH rest eq_refl)].
      intros d Hd; right; exact Hd.
Qed.

Lemma concat_functions_err (env : remote) (c s : string) (ps : list string)
    (p : string) (e : exn) :
  In p ps -> get_functions env c p (Some s) = Err e ->
  exists e', concat_functions env c s ps = Err e'.
Proof.
  induction ps as [|q ps IH]; intros Hin Hg; [destruct Hin|]; simpl.
  destruct Hin as [->|Hin].
  - rewrite Hg; exists e; reflexivity.
  - destruct (get_functions env c q (Some s)); simpl; [|eexists; reflexivity].
    destruct (IH Hin Hg) as (e' & ->); eexists; reflexivity.
Qed.

(** Resolving by name only returns functions of files the classifier
    accepted for that name. *)
Theorem get_function_by_name_in_classified_files (tbl : ext_table) (env : remote)
    (c path name : string) (results : results_obj) (fs : list Function_) :
  search_results (http_search env (search_url name)) = Some results ->
  get_function_by_name tbl env c path name = Ok fs ->
  Forall (fun f => In (fn_path f) (definition_paths tbl name results)) fs.
Proof.
  intros Hr H; unfold get_function_by_name in H.
  destruct (search tbl env (rev_or_tip c) name) as [ds|e] eqn:Hs; simpl in H;
    [|discriminate].
  unfold search in Hs.
  destruct (raise_for_status _); simpl in Hs; [|discriminate].
  rewrite Hr in Hs.
  apply concat_functions_paths in Hs.
  apply mapM_Forall2, Forall2_exists_left in H.
  eapply Forall_impl; [|exact H].
  intros f (d & Hd & Hdf).
  apply definition_to_result_ok in Hdf as (_ & _ & ->).
  exact (proj1 (Forall_forall _ _) Hs d Hd).
Qed.

Lemma get_function_by_name_in_classified_files_witness :
  Forall (fun f => In (fn_path f) ["a.js"]) [mk_Function "B" 10 "a.js" ""].
Proof.
  apply (get_function_by_name_in_classified_files SOURCE_CODE_TYPES_TO_EXT ex_env "" ""
           "B" [("normal", [("Definitions (B)", [mk_hit "a.js" "function B() {"])])]);
    vm_compute; reflexivity.
Defined.

(** If the scope listing of any file the classifier accepted fails, the
    whole index query fails: there is no partial result. *)
Theorem search_listing_failure_propagates (tbl : ext_table) (env : remote)
    (c name p : string) (results : results_obj) (e : exn) :
  ~ (400 <= search_status (http_search env (search_url name)) < 600) ->
  search_results (http_search env (search_url name)) = Some results ->
  In p (definition_paths tbl name results) ->
  get_functions env c p (Some name) = Err e ->
  exists e', search tbl env c name = Err e'.
Proof.
  intros Hst Hr Hin Hg; unfold search, raise_for_status.
  replace ((400 <=? _) && (_ <? 600)) with false
    by (symmetry; apply andb_false_iff;
        destruct (Z.le_gt_cases 400 (search_status (http_search env (search_url name))));
        [right; apply Z.ltb_ge | left; apply Z.leb_gt]; lia).
  simpl; rewrite Hr.
  exact (concat_functions_err _ _ _ _ _ _ Hin Hg).
Qed.

Lemma search_listing_failure_propagates_witness :
  exists e', search SOURCE_CODE_TYPES_TO_EXT ex_env_500 "" "B" = Err e'.
Proof.
  apply (search_listing_failure_propagates SOURCE_CODE_TYPES_TO_EXT ex_env_500 "" "B"
           "a.js" [("normal", [("Definitions (B)", [mk_hit "a.js" "function B() {"])])]
           (HTTPError 500));
    [simpl; lia | reflexivity | vm_compute; left; reflexivity | vm_compute; reflexivity].
Defined.


(** ** Further properties of the classifier *)








(** A matched scope annotation with no child element has no start line
    ([next(iter(...))] raises), so the whole listing of its file fails. *)
Theorem get_functions_empty_annotation_fails (env : remote) (c path : string)
    (symbol_name : option string) (file w : element) :
  let r := http_view env (source_url path) in
  view_status r <> 404 -> ~ (400 <= view_status r < 600) ->
  view_file r = [file] -> In w (iterdescendants file) ->
  is_sym_wrap symbol_name w = true -> children_of w = [] ->
  exists e, get_functions env c path symbol_name = Err e.
Proof.
  intros r H404 Hst Hv Hin Hsym Hkids; unfold get_functions; fold r.
  replace (view_status r =? 404) with false by (symmetry; apply Z.eqb_neq; exact H404).
  unfold raise_for_status.
  replace ((400 <=? view_status r) && (view_status r <? 600)) with false
    by (symmetry; apply andb_false_iff;
        destruct (Z.le_gt_cases 400 (view_status r));
        [right; apply Z.ltb_ge | left; apply Z.leb_gt]; lia).
  simpl; rewrite Hv.
  apply (mapM_Err _ _ w StopIteration); [apply filter_In; auto|].
  unfold sym_wrap_to_definition; rewrite Hkids.
  unfold is_sym_wrap in Hsym.
  destruct (lookup "data-nesting-sym" (attrib_of w)); [reflexivity | discriminate].
Qed.


Lemma get_functions_empty_annotation_fails_witness :
  exists e, get_functions
    (mk_remote (fun _ => mk_view_response 200 [ex_empty_file])
       (http_search ex_env) (get_file ex_env)) "" "e.js" None = Err e.
Proof.
  apply (get_functions_empty_annotation_fails _ "" "e.js" None ex_empty_file
           (Elem [("data-nesting-sym", "#E")] []));
    [simpl; lia | simpl; lia | reflexivity | left; reflexivity | reflexivity | reflexivity].
Defined.

(** ** The spec's examples, evaluated *)

Example enclosing_scope_examples :
  find_function_for_line ex_env "" "a.js" 15 = Ok (Some (mk_definition "B" "a.js" 10 20))
  /\ find_function_for_line ex_env "" "a.js" 50 = Ok (Some (mk_definition "A" "a.js" 1 100))
  /\ find_function_for_line ex_env "" "a.js" 200 = Ok None.
Proof. repeat split; vm_compute; reflexivity. Qed.

Example accept_rust_pipe :
  accept SOURCE_CODE_TYPES_TO_EXT "f" (mk_hit "a.rs" "let f = |x| x;") = true.
Proof. reflexivity. Qed.
Example accept_rust_fn :
  accept SOURCE_CODE_TYPES_TO_EXT "foo" (mk_hit "a.rs" "fn foo() {") = false.
Proof. reflexivity. Qed.
Example accept_c :
  accept SOURCE_CODE_TYPES_TO_EXT "foo"
    (mk_hit "a.cpp" "int foo(int x) { return foo(x); }") = true.
Proof. reflexivity. Qed.
Example accept_js_arrow :
  accept SOURCE_CODE_TYPES_TO_EXT "handler"
    (mk_hit "a.js" "const handler = x => x.foo") = true
  /\ accept SOURCE_CODE_TYPES_TO_EXT "foo"
    (mk_hit "a.js" "const handler = x => x.foo") = false.
Proof. split; reflexivity. Qed.
